(** * CountdownTimer (src/src/App.tsx): a shallow embedding of the widget's
    state, its event handlers, the interval tick and the two pure helpers
    [parseTimeInput] and [formatTime]. *)

From Stdlib Require Import ZArith List String Ascii Bool Lia.
Import ListNotations.
Open Scope string_scope.
Open Scope Z_scope.

(** ** Data model *)

(** [interface TimeState]. The fields are JS numbers; every value the
    widget stores is an integer-valued double, modelled by the integer it
    denotes. The arithmetic that produces them ([parseInt] and the tick's
    subtractions) rounds to the nearest double through [js_round].
    [Infinity], which [parseInt] returns for texts of about 309 digits or
    more, is not modelled. *)
Record TimeState := mkTime { hours : Z; minutes : Z; seconds : Z }.

(** The component's [useState] cells, plus a counter of how many times the
    beep ([beepRef.current.play]) has been played. *)
Record Widget := mkWidget {
  time : TimeState;
  isRunning : bool;
  isCompleted : bool;
  showAlert : bool;
  inputValue : string;
  beeps : nat
}.

Definition zeroTime : TimeState := mkTime 0 0 0.

Definition is_zero (t : TimeState) : bool :=
  (hours t =? 0) && (minutes t =? 0) && (seconds t =? 0).

(** Initial state: [useState({hours:0, minutes:5, seconds:0})], both flags
    false, no alert, ['05:00'] in the input. *)
Definition initial : Widget :=
  mkWidget (mkTime 0 5 0) false false false "05:00" 0.

(** ** JS number arithmetic on integers *)

(** [Number.MAX_SAFE_INTEGER]: up to it every integer is a double. *)
Definition MAX_SAFE_INTEGER : Z := 2 ^ 53 - 1.

(** The double nearest to the integer [z] (IEEE-754 round half to even,
    53-bit significand): exact for [|z| <= 2^53], otherwise a multiple of
    the spacing 2^(log2|z| - 52). Overflow (|z| >= 2^1024) is not
    modelled. *)
Definition js_round (z : Z) : Z :=
  let a := Z.abs z in
  if a <=? 2 ^ 53 then z
  else
    let ulp := 2 ^ (Z.log2 a - 52) in
    let q := a / ulp in
    let r := a mod ulp in
    let q' :=
      if 2 * r <? ulp then q
      else if ulp <? 2 * r then q + 1
      else if Z.even q then q else q + 1 in
    Z.sgn z * (q' * ulp).

(** JS [x - y] on integer-valued doubles. *)
Definition js_sub (x y : Z) : Z := js_round (x - y).

(** ** Tick (the [setInterval] callback, lines 56-76) *)

(** The [setTime] updater, on the non-zero path. *)
Definition tick_time (prevTime : TimeState) : TimeState :=
  let '(mkTime h m s) := prevTime in
  if s >? 0 then mkTime h m (js_sub s 1)
  else if m >? 0 then mkTime h (js_sub m 1) 59
  else if h >? 0 then mkTime (js_sub h 1) 59 59
  else prevTime.

(** The interval is armed only while [isRunning && !isCompleted]
    (the effect on [[isRunning, isCompleted]]); each firing runs the
    updater, whose zero branch sets the flags, shows the alert and plays
    the beep, returning [prevTime]. *)
Definition tick (w : Widget) : Widget :=
  if isRunning w && negb (isCompleted w) then
    if is_zero (time w) then
      mkWidget (time w) false true true (inputValue w) (S (beeps w))
    else
      mkWidget (tick_time (time w)) (isRunning w) (isCompleted w)
               (showAlert w) (inputValue w) (beeps w)
  else w.

(** ** String helpers of the JS runtime *)

(** [String.prototype.split(':')]: a string with no separator gives a
    one-element list, in particular [''.split(':')] is [['']]. *)
Fixpoint split_on (c : ascii) (s : string) : list string :=
  match s with
  | EmptyString => [EmptyString]
  | String x r =>
      if Ascii.eqb x c then EmptyString :: split_on c r
      else match split_on c r with
           | h :: t => String x h :: t
           | [] => [String x EmptyString]
           end
  end.

(** Strings are modelled as sequences of 8-bit (Latin-1) code units.
    The JS white space and line terminators among them, removed by [trim]
    and skipped by [parseInt]: TAB, LF, VT, FF, CR, space and U+00A0
    (no-break space). Code units above U+00FF (U+FEFF, U+2028, ...) are not
    representable in this model. *)
Definition is_ws (c : ascii) : bool :=
  let n := nat_of_ascii c in
  ((9 <=? n)%nat && (n <=? 13)%nat) || (n =? 32)%nat || (n =? 160)%nat.

Fixpoint trim_left (s : string) : string :=
  match s with
  | EmptyString => EmptyString
  | String c r => if is_ws c then trim_left r else s
  end.

Definition rev_string (s : string) : string :=
  string_of_list_ascii (rev (list_ascii_of_string s)).

(** [String.prototype.trim]. *)
Definition trim (s : string) : string :=
  rev_string (trim_left (rev_string (trim_left s))).

(** Value of a digit character in [radix] (10 or 16), if it is one. *)
Definition digit_value (radix : Z) (c : ascii) : option Z :=
  let n := Z.of_nat (nat_of_ascii c) in
  let v :=
    if (48 <=? n) && (n <=? 57) then Some (n - 48)
    else if (97 <=? n) && (n <=? 122) then Some (n - 87)
    else if (65 <=? n) && (n <=? 90) then Some (n - 55)
    else None in
  match v with
  | Some d => if d <? radix then Some d else None
  | None => None
  end.

(** Longest prefix of digits, accumulated most significant first;
    [None] when no digit at all. *)
Fixpoint digits_prefix (radix : Z) (acc : option Z) (s : string) : option Z :=
  match s with
  | EmptyString => acc
  | String c r =>
      match digit_value radix c with
      | Some d =>
          digits_prefix radix
            (Some (radix * match acc with Some a => a | None => 0 end + d)) r
      | None => acc
      end
  end.

(** [parseInt(string)] without radix: leading whitespace, optional sign,
    an optional [0x]/[0X] prefix switching to radix 16, then the longest
    digit prefix, whose value is rounded to the nearest double; [None]
    stands for [NaN]. *)
Definition parseInt (s : string) : option Z :=
  let s := trim_left s in
  let '(sign, s) :=
    match s with
    | String "-" r => (-1, r)
    | String "+" r => (1, r)
    | _ => (1, s)
    end in
  let '(radix, s) :=
    match s with
    | String "0" (String "x" r) => (16, r)
    | String "0" (String "X" r) => (16, r)
    | _ => (10, s)
    end in
  match digits_prefix radix None s with
  | Some v => Some (js_round (sign * v))
  | None => None
  end.

(** [x || 0] on the number [x]: [NaN], [0] and [-0] are falsy. *)
Definition or_zero (x : option Z) : Z :=
  match x with
  | Some v => v
  | None => 0
  end.

(** ** parseTimeInput (lines 92-100) *)

Definition parse_part (part : string) : Z := or_zero (parseInt (trim part)).

Definition parseTimeInput (input : string) : TimeState :=
  let parts := map parse_part (split_on ":" input) in
  match parts with
  | [p0; p1] => mkTime 0 p0 p1
  | [p0; p1; p2] => mkTime p0 p1 p2
  | _ => mkTime 0 0 0
  end.

(** ** formatTime (lines 102-112) *)

Definition digit_char (d : Z) : ascii := ascii_of_nat (Z.to_nat (48 + d)).

Fixpoint digits_aux (fuel : nat) (n : Z) (acc : string) : string :=
  match fuel with
  | O => acc
  | S f =>
      let acc' := String (digit_char (n mod 10)) acc in
      if n <? 10 then acc' else digits_aux f (n / 10) acc'
  end.

(** [Number.prototype.toString()] on an integer: its decimal digits. This
    is what JS prints for safe integers (|n| <= 2^53 - 1); above that JS
    prints the shortest digits that round to the same double, and from
    1e21 exponent notation, neither of which is modelled, so the lemmas
    about printed fields assume safe integers. *)
Definition toString (n : Z) : string :=
  let fuel := S (Z.to_nat (Z.log2 (Z.abs n))) in
  if n <? 0 then String "-" (digits_aux fuel (- n) EmptyString)
  else digits_aux fuel n EmptyString.

Fixpoint repeat_char (n : nat) (c : ascii) : string :=
  match n with
  | O => EmptyString
  | S k => String c (repeat_char k c)
  end.

(** [padStart(2, '0')]. *)
Definition padStart2 (s : string) : string :=
  repeat_char (2 - String.length s) "0" ++ s.

Definition formatTime (t : TimeState) : string :=
  let '(mkTime h m s) := t in
  if h >? 0 then
    padStart2 (toString h) ++ ":" ++ padStart2 (toString m) ++ ":"
      ++ padStart2 (toString s)
  else padStart2 (toString m) ++ ":" ++ padStart2 (toString s).

(** ** Event handlers (lines 114-147) *)

(** [handleInputChange]: the text is stored unconditionally, the parsed
    time only when not running. *)
Definition handleInputChange (value : string) (w : Widget) : Widget :=
  if negb (isRunning w) then
    mkWidget (parseTimeInput value) (isRunning w) false (showAlert w) value
             (beeps w)
  else
    mkWidget (time w) (isRunning w) (isCompleted w) (showAlert w) value
             (beeps w).

Definition handleStart (w : Widget) : Widget :=
  if is_zero (time w) then w
  else mkWidget (time w) true false (showAlert w) (inputValue w) (beeps w).

Definition handlePause (w : Widget) : Widget :=
  mkWidget (time w) false (isCompleted w) (showAlert w) (inputValue w)
           (beeps w).

Definition handleReset (w : Widget) : Widget :=
  mkWidget (parseTimeInput (inputValue w)) false false false (inputValue w)
           (beeps w).

Definition handlePreset (minutes : Z) (w : Widget) : Widget :=
  if negb (isRunning w) then
    let newTime := mkTime 0 minutes 0 in
    mkWidget newTime (isRunning w) false (showAlert w) (formatTime newTime)
             (beeps w)
  else w.

(** The Dismiss button of the alert: [setShowAlert(false)]. *)
Definition handleDismiss (w : Widget) : Widget :=
  mkWidget (time w) (isRunning w) (isCompleted w) false (inputValue w)
           (beeps w).

(** ** Events reaching the widget *)

Inductive event :=
| EvStart
| EvPause
| EvReset
| EvPreset (m : Z)
| EvInput (v : string)
| EvDismiss
| EvTick.

(** The operations applied directly, whatever the controls' state. *)
Definition apply_op (e : event) (w : Widget) : Widget :=
  match e with
  | EvStart => handleStart w
  | EvPause => handlePause w
  | EvReset => handleReset w
  | EvPreset m => handlePreset m w
  | EvInput v => handleInputChange v w
  | EvDismiss => handleDismiss w
  | EvTick => tick w
  end.

(** Whether the control producing [e] is rendered and enabled: the
    [disabled] attributes of the JSX (lines 181, 216-219, 227, 252) and the
    [showAlert &&] guard around the Dismiss button. *)
Definition enabled (e : event) (w : Widget) : bool :=
  match e with
  | EvStart => negb (isRunning w || is_zero (time w))
  | EvPause => isRunning w
  | EvReset => true
  | EvPreset _ => negb (isRunning w)
  | EvInput _ => negb (isRunning w)
  | EvDismiss => showAlert w
  | EvTick => true
  end.

(** One event as the rendered widget delivers it. *)
Definition step (w : Widget) (e : event) : Widget :=
  if enabled e w then apply_op e w else w.

Definition run (w : Widget) (es : list event) : Widget := fold_left step es w.

Definition run_ops (w : Widget) (es : list event) : Widget :=
  fold_left (fun w e => apply_op e w) es w.

Fixpoint ticks (n : nat) (w : Widget) : Widget :=
  match n with
  | O => w
  | S k => ticks k (tick w)
  end.

(** ** Reading of the spec *)

(** Duration fields are non-negative integers (spec, data model). *)
Definition nonneg (t : TimeState) : Prop :=
  0 <= hours t /\ 0 <= minutes t /\ 0 <= seconds t.

(** All fields are safe integers, where JS integer arithmetic is exact. *)
Definition safe (t : TimeState) : Prop :=
  hours t <= MAX_SAFE_INTEGER /\ minutes t <= MAX_SAFE_INTEGER
  /\ seconds t <= MAX_SAFE_INTEGER.

(** The borrow arithmetic in the words of the spec's [Tick]. *)
Definition borrow_spec (t : TimeState) : TimeState :=
  if seconds t >? 0 then mkTime (hours t) (minutes t) (seconds t - 1)
  else if minutes t >? 0 then mkTime (hours t) (minutes t - 1) 59
  else mkTime (hours t - 1) 59 59.

(** Two decimal digits, the leading one possibly ['0']. *)
Definition two_digit (x : Z) : string :=
  String (digit_char (x / 10)) (String (digit_char (x mod 10)) EmptyString).

Definition two_digit_check : bool :=
  forallb (fun n => String.eqb (padStart2 (toString (Z.of_nat n)))
                               (two_digit (Z.of_nat n))) (seq 0 100).

(** The two flags are never both set. *)
Definition flags_ok (w : Widget) : bool := negb (isRunning w && isCompleted w).

(** Decimal digit characters ['0'..'9']. *)
Definition is_dec (c : ascii) : bool :=
  (48 <=? nat_of_ascii c)%nat && (nat_of_ascii c <=? 57)%nat.

Definition AllDec (s : string) : Prop :=
  Forall (fun c => is_dec c = true) (list_ascii_of_string s).

(** Remaining time in seconds. *)
Definition total_seconds (t : TimeState) : Z :=
  3600 * hours t + 60 * minutes t + seconds t.

(** Events that leave the input text alone. *)
Definition keeps_text (e : event) : bool :=
  match e with
  | EvPreset _ | EvInput _ => false
  | _ => true
  end.

(** ** Sample evaluations *)

Example parse_ex1 : parseTimeInput "05:00" = mkTime 0 5 0. Proof. reflexivity. Qed.
Example parse_ex2 : parseTimeInput "1:02:03" = mkTime 1 2 3. Proof. reflexivity. Qed.
Example parse_ex3 : parseTimeInput " -7 : 0x1A" = mkTime 0 (-7) 26. Proof. reflexivity. Qed.
Example fmt_ex1 : formatTime (mkTime 1 0 0) = "01:00:00". Proof. reflexivity. Qed.
Example fmt_ex2 : formatTime (mkTime 0 123 7) = "123:07". Proof. reflexivity. Qed.
Example fmt_ex3 : formatTime (mkTime 0 (-5) 7) = "-5:07". Proof. reflexivity. Qed.

Example run_ex :
  let w := run initial [EvPreset 1; EvStart; EvTick] in
  time w = mkTime 0 0 59 /\ isRunning w = true.
Proof. split; reflexivity. Qed.

(** Outside the non-negative durations of the spec: the parser accepts a
    sign, and the tick then leaves such a duration as it is. *)
Example negative_input_ex :
  let w := run initial [EvInput "-1:00"; EvStart; EvTick] in
  time w = mkTime 0 (-1) 0 /\ isRunning w = true.
Proof. split; reflexivity. Qed.

(** ** Lemmas on JS number arithmetic *)

Lemma js_round_exact (z : Z) : Z.abs z <= 2 ^ 53 -> js_round z = z.
Proof.
  intros H; unfold js_round.
  rewrite (proj2 (Z.leb_le _ _) H); reflexivity.
Qed.

Lemma js_round_nonneg (z : Z) : 0 <= z -> 0 <= js_round z.
Proof.
  intros Hz; unfold js_round.
  destruct (Z.abs z <=? 2 ^ 53) eqn:E; [exact Hz|].
  apply Z.leb_gt in E; rewrite Z.abs_eq in * by exact Hz.
  rewrite (Z.sgn_pos z) by lia.
  assert (Hl : 53 <= Z.log2 z).
  { rewrite <- (Z.log2_pow2 53) by lia; apply Z.log2_le_mono; lia. }
  assert (Hu : 0 < 2 ^ (Z.log2 z - 52)) by (apply Z.pow_pos_nonneg; lia).
  assert (Hq : 0 <= z / 2 ^ (Z.log2 z - 52)) by (apply Z.div_pos; lia).
  rewrite Z.mul_1_l; apply Z.mul_nonneg_nonneg; [|lia].
  destruct (_ <? _); [exact Hq|]; destruct (_ <? _); [lia|].
  destruct (Z.even _); lia.
Qed.

Lemma js_sub_exact (x : Z) : 1 <= x <= MAX_SAFE_INTEGER -> js_sub x 1 = x - 1.
Proof.
  intros H; unfold js_sub, MAX_SAFE_INTEGER in *; apply js_round_exact.
  rewrite Z.abs_eq by lia; lia.
Qed.

(** ** Lemmas on the tick *)

Lemma is_zero_true (t : TimeState) : is_zero t = true <-> t = zeroTime.
Proof.
  destruct t as [h m s]; unfold is_zero, zeroTime; simpl.
  rewrite !andb_true_iff, !Z.eqb_eq; split.
  - intros [[-> ->] ->]; reflexivity.
  - intros H; inversion H; auto.
Qed.

Lemma tick_not_armed (w : Widget) :
  isRunning w && negb (isCompleted w) = false -> tick w = w.
Proof. intros H; unfold tick; rewrite H; reflexivity. Qed.

Lemma ticks_fixed (w : Widget) : tick w = w -> forall n, ticks n w = w.
Proof. intros H n; induction n as [|n IH]; simpl; [reflexivity | rewrite H; exact IH]. Qed.

Lemma tick_time_nonneg (t : TimeState) : nonneg t -> nonneg (tick_time t).
Proof.
  destruct t as [h m s]; unfold nonneg, tick_time; simpl; intros (Hh & Hm & Hs).
  destruct (s >? 0) eqn:E1;
    [apply Z.gtb_lt in E1; cbn [hours minutes seconds];
     pose proof (js_round_nonneg (s - 1)); unfold js_sub; lia|].
  destruct (m >? 0) eqn:E2;
    [apply Z.gtb_lt in E2; cbn [hours minutes seconds];
     pose proof (js_round_nonneg (m - 1)); unfold js_sub; lia|].
  destruct (h >? 0) eqn:E3;
    [apply Z.gtb_lt in E3; cbn [hours minutes seconds];
     pose proof (js_round_nonneg (h - 1)); unfold js_sub; lia|].
  cbn [hours minutes seconds]; lia.
Qed.

Lemma tick_nonneg (w : Widget) : nonneg (time w) -> nonneg (time (tick w)).
Proof.
  intros H; unfold tick.
  destruct (isRunning w && negb (isCompleted w)); [|exact H].
  destruct (is_zero (time w)); simpl; [exact H | apply tick_time_nonneg, H].
Qed.

Lemma tick_zero_time (w : Widget) : time w = zeroTime -> time (tick w) = zeroTime.
Proof.
  intros H; unfold tick.
  destruct (isRunning w && negb (isCompleted w)); [|exact H].
  assert (Hz : is_zero (time w) = true) by (apply is_zero_true; exact H).
  rewrite Hz; exact H.
Qed.

(** ** Claims *)

(** C1 (as corrected): a tick while Running on a non-zero duration whose
    fields are non-negative safe integers (at most 2^53 - 1) decrements it
    by one second with borrow: seconds, else minutes with seconds set to
    59, else hours with minutes and seconds set to 59; nothing else
    changes. From {0,1,0} one tick gives {0,0,59}. *)
Theorem C1_tick_borrow (w : Widget)
  (HR : isRunning w = true) (HC : isCompleted w = false)
  (Hnz : is_zero (time w) = false) (Hnn : nonneg (time w))
  (Hsafe : safe (time w)) :
  tick w = mkWidget (borrow_spec (time w)) true false (showAlert w)
                    (inputValue w) (beeps w)
  /\ (forall sa iv b,
        time (tick (mkWidget (mkTime 0 1 0) true false sa iv b)) = mkTime 0 0 59).
Proof.
  split; [|reflexivity].
  unfold tick; rewrite HR, HC, Hnz; cbn [andb negb].
  destruct w as [[h m s] r c sa iv b]; cbn in *; subst r c.
  unfold is_zero in Hnz; cbn in Hnz; unfold nonneg in Hnn; cbn in Hnn.
  unfold safe in Hsafe; cbn [hours minutes seconds] in Hsafe.
  unfold tick_time, borrow_spec; cbn [hours minutes seconds].
  destruct (s >? 0) eqn:E1.
  { apply Z.gtb_lt in E1; rewrite js_sub_exact by lia; reflexivity. }
  destruct (m >? 0) eqn:E2.
  { apply Z.gtb_lt in E2; rewrite js_sub_exact by lia; reflexivity. }
  rewrite Z.gtb_ltb, Z.ltb_ge in E1, E2.
  assert (Hs : s = 0) by lia; assert (Hm : m = 0) by lia; subst s m.
  rewrite Z.eqb_refl, !andb_true_r in Hnz; apply Z.eqb_neq in Hnz.
  assert (Hh : (h >? 0) = true) by (apply Z.gtb_lt; lia).
  rewrite Hh, js_sub_exact by lia; reflexivity.
Qed.

Lemma C1_tick_borrow_witness :
  let w := mkWidget (mkTime 2 0 0) true false false "02:00:00" 0 in
  tick w = mkWidget (mkTime 1 59 59) true false false "02:00:00" 0.
Proof.
  intros w.
  destruct (C1_tick_borrow w eq_refl eq_refl eq_refl) as [H _].
  - unfold nonneg; simpl; lia.
  - unfold safe, MAX_SAFE_INTEGER; simpl; lia.
  - exact H.
Defined.

(** C1 as stated fails above the safe integers: typing
    "0:18014398509481984" (2^54 seconds) and pressing Start gives a Running
    widget on which a tick leaves the duration unchanged, since the JS
    subtraction 2^54 - 1 rounds back to 2^54; the claim's decrement by one
    second would give 2^54 - 1. *)
Lemma C1_tick_borrow_counterexample :
  let w := run initial [EvInput "0:18014398509481984"; EvStart] in
  time w = mkTime 0 0 (2 ^ 54) /\ isRunning w = true /\ isCompleted w = false
  /\ nonneg (time w)
  /\ tick w = w
  /\ tick w <> mkWidget (borrow_spec (time w)) true false (showAlert w)
                        (inputValue w) (beeps w).
Proof.
  cbv zeta.
  split; [vm_compute; reflexivity|].
  split; [vm_compute; reflexivity|].
  split; [vm_compute; reflexivity|].
  split; [unfold nonneg; vm_compute; repeat split; discriminate|].
  split; [vm_compute; reflexivity|].
  vm_compute; intros H; inversion H.
Qed.

(** C2: a tick while Running on {0,0,0} does not decrement: it clears
    Running, sets Completed, shows the alert and plays the beep once,
    leaving {0,0,0}; no later tick fires the beep again. From {0,0,1}
    one tick gives {0,0,0} still Running, and the next tick completes. *)
Theorem C2_tick_zero_completes (w : Widget)
  (HR : isRunning w = true) (HC : isCompleted w = false)
  (Hz : time w = zeroTime) :
  let w' := tick w in
  isRunning w' = false /\ isCompleted w' = true /\ showAlert w' = true
  /\ beeps w' = S (beeps w) /\ time w' = zeroTime
  /\ (forall n, ticks n w' = w')
  /\ (forall sa iv b,
        let w1 := tick (mkWidget (mkTime 0 0 1) true false sa iv b) in
        let w2 := tick w1 in
        time w1 = zeroTime /\ isRunning w1 = true /\ isCompleted w1 = false
        /\ beeps w1 = b
        /\ isRunning w2 = false /\ isCompleted w2 = true /\ beeps w2 = S b
        /\ time w2 = zeroTime).
Proof.
  assert (Hz' : is_zero (time w) = true) by (apply is_zero_true; exact Hz).
  assert (Ht : tick w = mkWidget (time w) false true true (inputValue w)
                                 (S (beeps w)))
    by (unfold tick; rewrite HR, HC, Hz'; reflexivity).
  cbv zeta; rewrite Ht; simpl.
  split; [reflexivity|]; split; [reflexivity|]; split; [reflexivity|].
  split; [reflexivity|]; split; [exact Hz|]; split.
  - intros n; apply ticks_fixed, tick_not_armed; reflexivity.
  - intros sa iv b; repeat split.
Qed.

Lemma C2_tick_zero_completes_witness :
  let w := tick (mkWidget zeroTime true false false "00:00" 3) in
  isCompleted w = true /\ beeps w = 4%nat.
Proof.
  destruct (C2_tick_zero_completes (mkWidget zeroTime true false false "00:00" 3)
              eq_refl eq_refl eq_refl) as (_ & H1 & _ & H2 & _).
  split; [exact H1 | exact H2].
Defined.

(** C10: a tick keeps every field of a non-negative duration
    non-negative, so does any number of ticks, and once the duration is
    {0,0,0} further ticks leave it there. *)
Theorem C10_tick_nonneg (w : Widget) (Hnn : nonneg (time w)) :
  nonneg (time (tick w))
  /\ (forall n, nonneg (time (ticks n w)))
  /\ (time w = zeroTime -> forall n, time (ticks n w) = zeroTime).
Proof.
  split; [apply tick_nonneg, Hnn|]; split.
  - intros n; revert w Hnn; induction n as [|n IH]; intros w Hnn; simpl;
      [exact Hnn | apply IH, tick_nonneg, Hnn].
  - intros Hz n; revert w Hnn Hz; induction n as [|n IH]; intros w Hnn Hz;
      simpl; [exact Hz|].
    apply IH; [apply tick_nonneg, Hnn | apply tick_zero_time, Hz].
Qed.

Lemma C10_tick_nonneg_witness :
  nonneg (time (ticks 200 (mkWidget (mkTime 0 1 30) true false false "1:30" 0))).
Proof.
  destruct (C10_tick_nonneg (mkWidget (mkTime 0 1 30) true false false "1:30" 0))
    as (_ & H & _).
  - unfold nonneg; simpl; lia.
  - apply H.
Defined.

(** ** Lemmas on the parser *)

Lemma split_on_nonempty (c : ascii) (s : string) : split_on c s <> [].
Proof.
  destruct s as [|x r]; simpl; [discriminate|].
  destruct (Ascii.eqb x c); [discriminate|].
  destruct (split_on c r); discriminate.
Qed.

Lemma split_on_concat (c : ascii) (s : string) :
  String.concat (String c EmptyString) (split_on c s) = s.
Proof.
  induction s as [|x r IH]; [reflexivity|]; simpl.
  destruct (Ascii.eqb x c) eqn:E.
  - apply Ascii.eqb_eq in E; subst x.
    destruct (split_on c r) as [|h t] eqn:S; [exfalso; exact (split_on_nonempty c r S)|].
    simpl; rewrite <- IH; reflexivity.
  - destruct (split_on c r) as [|h t] eqn:S; [exfalso; exact (split_on_nonempty c r S)|].
    destruct t as [|h' t]; simpl in *; rewrite <- IH; reflexivity.
Qed.

Lemma split_on_no_sep (c : ascii) (s : string) :
  Forall (fun p => ~ In c (list_ascii_of_string p)) (split_on c s).
Proof.
  induction s as [|x r IH]; simpl; [constructor; [simpl; tauto | constructor]|].
  destruct (Ascii.eqb x c) eqn:E.
  - constructor; [simpl; tauto | exact IH].
  - destruct (split_on c r) as [|h t]; [constructor; [|constructor]|].
    + simpl; intros [H|H]; [subst; rewrite Ascii.eqb_refl in E; discriminate | exact H].
    + inversion IH as [|? ? Hh Ht]; subst.
      constructor; [|exact Ht].
      simpl; intros [H|H]; [subst; rewrite Ascii.eqb_refl in E; discriminate | exact (Hh H)].
Qed.

(** C3: [parseTimeInput] splits its input on ':' into parts (the parts
    joined with ':' give back the input and none contains ':'); a part
    that is not numeric ([parseInt] gives [NaN]), in particular an empty
    one, counts as 0; two parts give {0,p0,p1}, three parts {p0,p1,p2},
    any other count {0,0,0}. The function is total: no error is raised.
    Examples: "05:00", "1:02:03", "abc", "". *)
Theorem C3_parseTimeInput (input : string) :
  String.concat ":" (split_on ":" input) = input
  /\ Forall (fun p => ~ In ":"%char (list_ascii_of_string p)) (split_on ":" input)
  /\ (forall p, parseInt (trim p) = None -> parse_part p = 0)
  /\ parse_part "" = 0
  /\ match split_on ":" input with
     | [a; b] => parseTimeInput input = mkTime 0 (parse_part a) (parse_part b)
     | [a; b; c] =>
         parseTimeInput input = mkTime (parse_part a) (parse_part b) (parse_part c)
     | _ => parseTimeInput input = mkTime 0 0 0
     end
  /\ parseTimeInput "05:00" = mkTime 0 5 0
  /\ parseTimeInput "1:02:03" = mkTime 1 2 3
  /\ parseTimeInput "abc" = mkTime 0 0 0
  /\ parseTimeInput "" = mkTime 0 0 0.
Proof.
  split; [apply split_on_concat|]; split; [apply split_on_no_sep|].
  split; [intros p H; unfold parse_part; rewrite H; reflexivity|].
  split; [reflexivity|].
  split; [|repeat split].
  unfold parseTimeInput.
  destruct (split_on ":" input) as [|a [|b [|c [|d l]]]]; reflexivity.
Qed.

Lemma C3_parseTimeInput_witness :
  parse_part " x7" = 0 /\ parseTimeInput " 2 : y " = mkTime 0 2 0.
Proof.
  destruct (C3_parseTimeInput " 2 : y ") as (_ & _ & Hnan & _ & H & _).
  split; [apply Hnan; reflexivity | exact H].
Defined.

(** C4: Start on {0,0,0} changes nothing (also as delivered by the
    widget, whose Start button is then disabled); on a non-zero duration
    when not Running it sets Running, clears Completed and keeps the
    duration, the alert and the text. *)
Theorem C4_start_guard (w : Widget) :
  (is_zero (time w) = true -> handleStart w = w /\ step w EvStart = w)
  /\ (is_zero (time w) = false -> isRunning w = false ->
      let w' := step w EvStart in
      w' = handleStart w
      /\ isRunning w' = true /\ isCompleted w' = false /\ time w' = time w
      /\ showAlert w' = showAlert w /\ inputValue w' = inputValue w
      /\ beeps w' = beeps w).
Proof.
  split.
  - intros Hz; unfold handleStart, step, enabled; rewrite Hz, orb_true_r; simpl.
    split; reflexivity.
  - intros Hz HR; cbv zeta; unfold step, enabled; rewrite Hz, HR; simpl.
    unfold handleStart; rewrite Hz; simpl; repeat split.
Qed.

Lemma C4_start_guard_witness :
  handleStart (mkWidget zeroTime false false false "0:0" 0)
    = mkWidget zeroTime false false false "0:0" 0
  /\ isRunning (step (mkWidget (mkTime 0 5 0) false true true "05:00" 1) EvStart) = true.
Proof.
  split.
  - apply (proj1 (C4_start_guard (mkWidget zeroTime false false false "0:0" 0)) eq_refl).
  - apply (proj2 (C4_start_guard (mkWidget (mkTime 0 5 0) false true true "05:00" 1))
             eq_refl eq_refl).
Defined.

(** C5: Reset, from any state, clears Running, Completed and the alert,
    and sets the duration to the parse of the current input text. *)
Theorem C5_reset (w : Widget) :
  let w' := step w EvReset in
  w' = handleReset w
  /\ isRunning w' = false /\ isCompleted w' = false /\ showAlert w' = false
  /\ time w' = parseTimeInput (inputValue w) /\ inputValue w' = inputValue w.
Proof. cbv zeta; unfold step, enabled; simpl; repeat split. Qed.

(** C6: while Running, a preset or an input edit changes nothing: the
    preset handler ignores it, and the widget delivers neither (the preset
    buttons and the text field are disabled). When not Running both take
    effect: a preset sets {0,m,0} and its formatted text, an edit stores
    the text and its parse. *)
Theorem C6_running_ignores_edits (w : Widget) :
  (isRunning w = true -> forall m v,
     handlePreset m w = w /\ step w (EvPreset m) = w /\ step w (EvInput v) = w)
  /\ (isRunning w = false -> forall m v,
     time (step w (EvPreset m)) = mkTime 0 m 0
     /\ inputValue (step w (EvPreset m)) = formatTime (mkTime 0 m 0)
     /\ time (step w (EvInput v)) = parseTimeInput v
     /\ inputValue (step w (EvInput v)) = v).
Proof.
  split; intros HR m v; unfold step, enabled, apply_op, handlePreset,
    handleInputChange; rewrite HR; simpl; repeat split.
Qed.

Lemma C6_running_ignores_edits_witness :
  let w := mkWidget (mkTime 0 3 0) true false false "03:00" 0 in
  step w (EvPreset 10) = w
  /\ time (step (mkWidget (mkTime 0 3 0) false false false "03:00" 0) (EvPreset 10))
       = mkTime 0 10 0.
Proof.
  split.
  - apply (proj1 (C6_running_ignores_edits (mkWidget (mkTime 0 3 0) true false false "03:00" 0))
             eq_refl 10 "").
  - apply (proj2 (C6_running_ignores_edits (mkWidget (mkTime 0 3 0) false false false "03:00" 0))
             eq_refl 10 "").
Defined.

(** The handler itself stores the edited text while Running; only the
    disabled text field keeps such an edit from reaching it. *)
Lemma handleInputChange_running_stores_text (w : Widget) (v : string) :
  isRunning w = true ->
  handleInputChange v w
    = mkWidget (time w) true (isCompleted w) (showAlert w) v (beeps w).
Proof. intros HR; unfold handleInputChange; rewrite HR; reflexivity. Qed.

(** ** Lemmas on the formatter *)

Lemma digits_aux_length (f : nat) (n : Z) (acc : string) :
  (String.length acc <= String.length (digits_aux f n acc))%nat.
Proof.
  revert n acc; induction f as [|f IH]; intros n acc; simpl; [lia|].
  destruct (n <? 10); simpl; [lia|].
  specialize (IH (n / 10) (String (digit_char (n mod 10)) acc)); simpl in IH; lia.
Qed.

Lemma toString_nonempty (x : Z) : (1 <= String.length (toString x))%nat.
Proof.
  unfold toString; destruct (x <? 0); simpl; [lia|].
  destruct (x <? 10); simpl; [lia|].
  pose proof (digits_aux_length (Z.to_nat (Z.log2 (Z.abs x))) (x / 10)
                (String (digit_char (x mod 10)) EmptyString)) as H; simpl in H; lia.
Qed.

Lemma string_length_append (a b : string) :
  String.length (a ++ b) = (String.length a + String.length b)%nat.
Proof. induction a as [|c a IH]; simpl; [reflexivity | rewrite IH; reflexivity]. Qed.

Lemma padStart2_length (s : string) : (2 <= String.length (padStart2 s))%nat.
Proof.
  unfold padStart2; rewrite string_length_append.
  assert (Hr : forall k c, String.length (repeat_char k c) = k)
    by (induction k; simpl; auto).
  rewrite Hr; lia.
Qed.

Lemma two_digit_check_ok : two_digit_check = true.
Proof. vm_compute; reflexivity. Qed.

Lemma pad_two_digit (x : Z) : 0 <= x < 100 -> padStart2 (toString x) = two_digit x.
Proof.
  intros Hx.
  pose proof two_digit_check_ok as H; unfold two_digit_check in H.
  rewrite forallb_forall in H.
  specialize (H (Z.to_nat x)); rewrite Z2Nat.id in H by lia.
  apply String.eqb_eq, H, in_seq; lia.
Qed.

(** C7: [formatTime] gives MM:SS when hours = 0 and HH:MM:SS otherwise,
    each field written by [padStart(2,'0')]: at least two characters, and
    for a value below 100 exactly its two decimal digits. {0,5,0} gives
    "05:00" and {1,0,0} gives "01:00:00". *)
Theorem C7_formatTime (t : TimeState) (Hnn : nonneg t) :
  formatTime t =
    (if hours t =? 0 then
       padStart2 (toString (minutes t)) ++ ":" ++ padStart2 (toString (seconds t))
     else
       padStart2 (toString (hours t)) ++ ":" ++ padStart2 (toString (minutes t))
         ++ ":" ++ padStart2 (toString (seconds t)))
  /\ (forall x, (2 <= String.length (padStart2 (toString x)))%nat)
  /\ (forall x, 0 <= x < 100 -> padStart2 (toString x) = two_digit x)
  /\ formatTime (mkTime 0 5 0) = "05:00"
  /\ formatTime (mkTime 1 0 0) = "01:00:00".
Proof.
  split; [|split; [intros x; apply padStart2_length|
                   split; [apply pad_two_digit | split; reflexivity]]].
  destruct t as [h m s]; unfold nonneg in Hnn; simpl in *.
  unfold formatTime.
  destruct (h =? 0) eqn:E.
  - apply Z.eqb_eq in E; subst h; reflexivity.
  - apply Z.eqb_neq in E.
    assert (Hh : (h >? 0) = true) by (apply Z.gtb_lt; lia).
    rewrite Hh; reflexivity.
Qed.

Lemma C7_formatTime_witness :
  formatTime (mkTime 2 7 45) = "02:07:45".
Proof.
  destruct (C7_formatTime (mkTime 2 7 45)) as [H _].
  - unfold nonneg; simpl; lia.
  - rewrite H; reflexivity.
Defined.

(** C8: Pause when not Running changes nothing (and the widget does not
    deliver it, its button being disabled); Pause while Running (so not
    Completed) gives Idle with the same duration; Pause twice is Pause
    once. *)
Theorem C8_pause_idempotent (w : Widget) :
  (isRunning w = false -> handlePause w = w /\ step w EvPause = w)
  /\ (isRunning w = true -> isCompleted w = false ->
      let w' := step w EvPause in
      isRunning w' = false /\ isCompleted w' = false /\ time w' = time w
      /\ showAlert w' = showAlert w /\ inputValue w' = inputValue w)
  /\ handlePause (handlePause w) = handlePause w
  /\ step (step w EvPause) EvPause = step w EvPause.
Proof.
  destruct w as [t r c sa iv b]; unfold step, enabled, apply_op, handlePause;
    simpl; split; [|split; [|split]].
  - intros ->; split; reflexivity.
  - intros -> ->; simpl; repeat split.
  - reflexivity.
  - destruct r; reflexivity.
Qed.

Lemma C8_pause_idempotent_witness :
  handlePause (mkWidget (mkTime 0 5 0) false false false "05:00" 0)
    = mkWidget (mkTime 0 5 0) false false false "05:00" 0
  /\ isRunning (step (mkWidget (mkTime 0 4 0) true false false "05:00" 0) EvPause)
       = false.
Proof.
  split.
  - apply (proj1 (C8_pause_idempotent
                    (mkWidget (mkTime 0 5 0) false false false "05:00" 0)) eq_refl).
  - apply (proj1 (proj2 (C8_pause_idempotent
                    (mkWidget (mkTime 0 4 0) true false false "05:00" 0)))
             eq_refl eq_refl).
Defined.

(** ** The flags invariant *)

Lemma apply_op_flags_ok (e : event) (w : Widget) :
  flags_ok w = true -> flags_ok (apply_op e w) = true.
Proof.
  destruct w as [t r c sa iv b]; unfold flags_ok; simpl; intros H.
  destruct e; simpl.
  - unfold handleStart; simpl; destruct (is_zero t); simpl; [exact H | reflexivity].
  - reflexivity.
  - reflexivity.
  - unfold handlePreset; simpl; destruct r; simpl; [exact H | reflexivity].
  - unfold handleInputChange; simpl; destruct r; simpl; [exact H | reflexivity].
  - exact H.
  - unfold tick; simpl; destruct (r && negb c) eqn:E; simpl; [|exact H].
    destruct (is_zero t); simpl; [reflexivity | exact H].
Qed.

Lemma step_flags_ok (w : Widget) (e : event) :
  flags_ok w = true -> flags_ok (step w e) = true.
Proof.
  intros H; unfold step; destruct (enabled e w); [apply apply_op_flags_ok, H | exact H].
Qed.

Lemma run_flags_ok (es : list event) :
  forall w, flags_ok w = true -> flags_ok (run w es) = true.
Proof.
  unfold run; induction es as [|e es IH]; intros w H; simpl;
    [exact H | apply IH, step_flags_ok, H].
Qed.

Lemma run_ops_flags_ok (es : list event) :
  forall w, flags_ok w = true -> flags_ok (run_ops w es) = true.
Proof.
  unfold run_ops; induction es as [|e es IH]; intros w H; simpl; [exact H|].
  apply IH; apply apply_op_flags_ok; exact H.
Qed.

(** C9: in every state reached from the initial one by any sequence of
    Start, Pause, Reset, Tick, preset, input edit (and Dismiss), whether
    delivered by the widget or applied directly to the handlers,
    [isRunning] and [isCompleted] are never both true. *)
Theorem C9_running_completed_exclusive (es : list event) :
  ~ (isRunning (run initial es) = true /\ isCompleted (run initial es) = true)
  /\ ~ (isRunning (run_ops initial es) = true
        /\ isCompleted (run_ops initial es) = true).
Proof.
  pose proof (run_flags_ok es initial eq_refl) as Hrun.
  pose proof (run_ops_flags_ok es initial eq_refl) as Hops.
  unfold flags_ok in *; split; intros [H1 H2];
    [rewrite H1, H2 in Hrun | rewrite H1, H2 in Hops]; discriminate.
Qed.

(** ** Round trip of [formatTime] through [parseTimeInput] *)

Lemma dec_cases (c : ascii) :
  is_dec c = true ->
  c = "0"%char \/ c = "1"%char \/ c = "2"%char \/ c = "3"%char \/ c = "4"%char
  \/ c = "5"%char \/ c = "6"%char \/ c = "7"%char \/ c = "8"%char \/ c = "9"%char.
Proof.
  unfold is_dec; intros H; apply andb_true_iff in H as [H1 H2].
  apply Nat.leb_le in H1; apply Nat.leb_le in H2.
  rewrite <- (ascii_nat_embedding c).
  assert (Hn : nat_of_ascii c = 48%nat \/ nat_of_ascii c = 49%nat
            \/ nat_of_ascii c = 50%nat \/ nat_of_ascii c = 51%nat
            \/ nat_of_ascii c = 52%nat \/ nat_of_ascii c = 53%nat
            \/ nat_of_ascii c = 54%nat \/ nat_of_ascii c = 55%nat
            \/ nat_of_ascii c = 56%nat \/ nat_of_ascii c = 57%nat) by lia.
  destruct Hn as [E|[E|[E|[E|[E|[E|[E|[E|[E|E]]]]]]]]]; rewrite E; simpl; tauto.
Qed.

Lemma digit_char_ok (d : Z) :
  0 <= d < 10 -> digit_value 10 (digit_char d) = Some d /\ is_dec (digit_char d) = true.
Proof.
  intros Hd.
  assert (E : d = 0 \/ d = 1 \/ d = 2 \/ d = 3 \/ d = 4 \/ d = 5 \/ d = 6
              \/ d = 7 \/ d = 8 \/ d = 9) by lia.
  destruct E as [E|[E|[E|[E|[E|[E|[E|[E|[E|E]]]]]]]]]; subst d; split; reflexivity.
Qed.

Lemma dec_digit_value (c : ascii) :
  is_dec c = true -> exists d, digit_value 10 c = Some d.
Proof.
  intros H; destruct (dec_cases c H) as [E|[E|[E|[E|[E|[E|[E|[E|[E|E]]]]]]]]];
    subst c; eexists; reflexivity.
Qed.

Lemma list_ascii_of_string_app (a b : string) :
  list_ascii_of_string (a ++ b) = app (list_ascii_of_string a) (list_ascii_of_string b).
Proof. induction a as [|c a IH]; simpl; [reflexivity | rewrite IH; reflexivity]. Qed.

Lemma digits_aux_dec (f : nat) (n : Z) (acc : string) :
  0 <= n -> AllDec acc -> AllDec (digits_aux f n acc).
Proof.
  unfold AllDec; revert n acc; induction f as [|f IH]; intros n acc Hn Hacc;
    simpl; [exact Hacc|].
  assert (Hc : is_dec (digit_char (n mod 10)) = true)
    by (apply digit_char_ok; apply Z.mod_pos_bound; lia).
  destruct (n <? 10).
  - simpl; constructor; assumption.
  - apply IH; [apply Z.div_pos; lia | simpl; constructor; assumption].
Qed.

Lemma pad_dec (x : Z) : 0 <= x -> AllDec (padStart2 (toString x)).
Proof.
  intros Hx; unfold padStart2, toString.
  assert (Hneg : (x <? 0) = false) by (apply Z.ltb_ge; lia); rewrite Hneg.
  unfold AllDec; rewrite list_ascii_of_string_app; apply Forall_app; split.
  - generalize (2 - String.length (digits_aux (S (Z.to_nat (Z.log2 (Z.abs x)))) x
                                      EmptyString))%nat.
    intros k; induction k as [|k IH]; simpl; constructor; [reflexivity | exact IH].
  - apply digits_aux_dec; [exact Hx | constructor].
Qed.

Lemma digits_prefix_aux (f : nat) :
  forall n acc a, 0 <= n < 10 ^ Z.of_nat f ->
  exists k, 0 <= k /\
    digits_prefix 10 (Some a) (digits_aux f n acc)
    = digits_prefix 10 (Some (a * 10 ^ k + n)) acc.
Proof.
  induction f as [|f IH]; intros n acc a Hn.
  - simpl in Hn; exists 0; split; [lia|].
    replace n with 0 by lia; simpl; rewrite Z.mul_1_r, Z.add_0_r; reflexivity.
  - rewrite Nat2Z.inj_succ, Z.pow_succ_r in Hn by lia.
    assert (Hm : 0 <= n mod 10 < 10) by (apply Z.mod_pos_bound; lia).
    destruct (digit_char_ok (n mod 10) Hm) as [Hv _].
    cbn [digits_aux]; destruct (n <? 10) eqn:E.
    + apply Z.ltb_lt in E; exists 1; split; [lia|].
      cbn [digits_prefix]; rewrite Hv.
      assert (Heq : 10 * a + n mod 10 = a * 10 ^ 1 + n)
        by (rewrite Z.mod_small, Z.pow_1_r by lia; lia).
      rewrite Heq; reflexivity.
    + apply Z.ltb_ge in E.
      destruct (IH (n / 10) (String (digit_char (n mod 10)) acc) a) as (k & Hk & Hr).
      { split; [apply Z.div_pos; lia | apply Z.div_lt_upper_bound; lia]. }
      exists (k + 1); split; [lia|].
      rewrite Hr; cbn [digits_prefix]; rewrite Hv.
      assert (Heq : 10 * (a * 10 ^ k + n / 10) + n mod 10 = a * 10 ^ (k + 1) + n).
      { rewrite Z.pow_add_r, Z.pow_1_r by lia.
        pose proof (Z.div_mod n 10 ltac:(lia)); lia. }
      rewrite Heq; reflexivity.
Qed.

Lemma toString_fuel (x : Z) :
  0 <= x -> 0 <= x < 10 ^ Z.of_nat (S (Z.to_nat (Z.log2 (Z.abs x)))).
Proof.
  intros Hx; split; [exact Hx|].
  rewrite Z.abs_eq by exact Hx.
  rewrite Nat2Z.inj_succ, Z2Nat.id by apply Z.log2_nonneg.
  destruct (Z.eq_dec x 0) as [->|Hx0]; [simpl; lia|].
  destruct (Z.log2_spec x ltac:(lia)) as [_ H].
  rewrite <- Z.add_1_r.
  eapply Z.lt_le_trans; [exact H|].
  apply Z.pow_le_mono_l; pose proof (Z.log2_nonneg x); lia.
Qed.

Lemma digits_prefix_zeros (k : nat) (s : string) :
  digits_prefix 10 (Some 0) (repeat_char k "0" ++ s) = digits_prefix 10 (Some 0) s.
Proof. induction k as [|k IH]; simpl; [reflexivity | exact IH]. Qed.

Lemma dec_not_ws (c : ascii) : is_dec c = true -> is_ws c = false.
Proof.
  unfold is_dec, is_ws; intros H; apply andb_true_iff in H as [H1 H2].
  apply Nat.leb_le in H1; apply Nat.leb_le in H2.
  apply orb_false_iff; split; [apply orb_false_iff; split|].
  - apply andb_false_iff; right; apply Nat.leb_gt; lia.
  - apply Nat.eqb_neq; lia.
  - apply Nat.eqb_neq; lia.
Qed.

Lemma trim_left_dec (s : string) : AllDec s -> trim_left s = s.
Proof.
  unfold AllDec; destruct s as [|c r]; simpl; intros H; [reflexivity|].
  inversion H as [|? ? Hc _]; subst; rewrite (dec_not_ws c Hc); reflexivity.
Qed.

Lemma trim_dec (s : string) : AllDec s -> trim s = s.
Proof.
  intros H; unfold trim; rewrite (trim_left_dec s H).
  assert (Hr : AllDec (rev_string s)).
  { unfold AllDec, rev_string in *; rewrite list_ascii_of_string_of_list_ascii.
    apply Forall_rev; exact H. }
  rewrite (trim_left_dec _ Hr); unfold rev_string.
  rewrite list_ascii_of_string_of_list_ascii, rev_involutive.
  apply string_of_list_ascii_of_string.
Qed.

Lemma parseInt_dec (s : string) :
  AllDec s -> (2 <= String.length s)%nat ->
  parseInt s = match digits_prefix 10 None s with
               | Some v => Some (js_round (1 * v))
               | None => None
               end.
Proof.
  unfold AllDec; destruct s as [|c1 [|c2 r]]; simpl; intros H Hl; try lia.
  inversion H as [|? ? H1 H'']; subst; inversion H'' as [|? ? H2 _]; subst.
  destruct (dec_cases c1 H1) as [E|[E|[E|[E|[E|[E|[E|[E|[E|E]]]]]]]]]; subst c1;
  destruct (dec_cases c2 H2) as [E|[E|[E|[E|[E|[E|[E|[E|[E|E]]]]]]]]]; subst c2;
  reflexivity.
Qed.

Lemma parse_part_pad (x : Z) :
  0 <= x <= MAX_SAFE_INTEGER -> parse_part (padStart2 (toString x)) = x.
Proof.
  intros [Hx Hmax]; unfold parse_part.
  pose proof (pad_dec x Hx) as Hd.
  rewrite (trim_dec _ Hd), (parseInt_dec _ Hd (padStart2_length _)).
  assert (Hs : toString x
               = digits_aux (S (Z.to_nat (Z.log2 (Z.abs x)))) x EmptyString)
    by (unfold toString; rewrite (proj2 (Z.ltb_ge x 0) Hx); reflexivity).
  destruct (padStart2 (toString x)) as [|c r] eqn:Ep.
  { pose proof (padStart2_length (toString x)) as Hl; rewrite Ep in Hl; simpl in Hl; lia. }
  assert (Hc : is_dec c = true)
    by (unfold AllDec in Hd; simpl in Hd; inversion Hd; assumption).
  destruct (dec_digit_value c Hc) as [d Hv].
  change (or_zero (match digits_prefix 10 None (String c r) with
                   | Some v => Some (js_round (1 * v))
                   | None => None
                   end) = x).
  assert (E0 : digits_prefix 10 None (String c r) = digits_prefix 10 (Some 0) (String c r))
    by (cbn [digits_prefix]; rewrite Hv; reflexivity).
  rewrite E0, <- Ep; unfold padStart2; rewrite digits_prefix_zeros, Hs.
  destruct (digits_prefix_aux _ x EmptyString 0 (toString_fuel x Hx)) as (k & _ & Hk).
  rewrite Hk; cbn [digits_prefix or_zero].
  rewrite js_round_exact; [lia|].
  unfold MAX_SAFE_INTEGER in Hmax; rewrite Z.abs_eq; lia.
Qed.

Lemma split_on_app (sep : ascii) (a b : string) :
  Forall (fun c => Ascii.eqb c sep = false) (list_ascii_of_string a) ->
  split_on sep (a ++ String sep b) = a :: split_on sep b.
Proof.
  induction a as [|x a IH]; simpl; intros H.
  - rewrite Ascii.eqb_refl; reflexivity.
  - inversion H as [|? ? Hx Ha]; subst; rewrite Hx, (IH Ha); reflexivity.
Qed.

Lemma split_on_single (sep : ascii) (a : string) :
  Forall (fun c => Ascii.eqb c sep = false) (list_ascii_of_string a) ->
  split_on sep a = [a].
Proof.
  induction a as [|x a IH]; simpl; intros H; [reflexivity|].
  inversion H as [|? ? Hx Ha]; subst; rewrite Hx, (IH Ha); reflexivity.
Qed.

Lemma dec_no_colon (s : string) :
  AllDec s -> Forall (fun c => Ascii.eqb c ":" = false) (list_ascii_of_string s).
Proof.
  unfold AllDec; apply Forall_impl; intros c Hc.
  destruct (dec_cases c Hc) as [E|[E|[E|[E|[E|[E|[E|[E|[E|E]]]]]]]]]; subst c; reflexivity.
Qed.

Lemma parse_format_safe (t : TimeState) (Hnn : nonneg t) (Hsafe : safe t) :
  parseTimeInput (formatTime t) = t.
Proof.
  destruct t as [h m s]; unfold nonneg, safe in *; cbn [hours minutes seconds] in *.
  destruct Hnn as (Hh & Hm & Hs); destruct Hsafe as (Sh & Sm & Ss).
  pose proof (pad_dec h Hh) as Dh; pose proof (pad_dec m Hm) as Dm;
    pose proof (pad_dec s Hs) as Ds.
  unfold formatTime, parseTimeInput.
  destruct (h >? 0) eqn:E.
  - cbn [append].
    rewrite (split_on_app _ _ _ (dec_no_colon _ Dh)),
            (split_on_app _ _ _ (dec_no_colon _ Dm)),
            (split_on_single _ _ (dec_no_colon _ Ds)).
    cbn [map]; rewrite !parse_part_pad by lia; reflexivity.
  - rewrite Z.gtb_ltb, Z.ltb_ge in E; replace h with 0 by lia.
    cbn [append].
    rewrite (split_on_app _ _ _ (dec_no_colon _ Dm)),
            (split_on_single _ _ (dec_no_colon _ Ds)).
    cbn [map]; rewrite !parse_part_pad by lia; reflexivity.
Qed.

(** X1: for every duration whose fields are non-negative safe integers
    (at most 2^53 - 1, where JS prints every digit), parsing the displayed
    text gives the duration back, including minutes or seconds of 60 and
    more ([formatTime] then [parseTimeInput] is the identity there). *)
Theorem formatTime_parseTimeInput_roundtrip (t : TimeState)
  (Hnn : nonneg t) (Hsafe : safe t) :
  parseTimeInput (formatTime t) = t.
Proof. exact (parse_format_safe t Hnn Hsafe). Qed.

Lemma formatTime_parseTimeInput_roundtrip_witness :
  parseTimeInput (formatTime (mkTime 0 75 120)) = mkTime 0 75 120.
Proof.
  apply formatTime_parseTimeInput_roundtrip;
    [unfold nonneg; simpl; lia | unfold safe, MAX_SAFE_INTEGER; simpl; lia].
Defined.

(** X10: on durations whose fields are non-negative safe integers the
    display text determines the duration: two different such durations
    never show the same text. *)
Theorem formatTime_injective (t1 t2 : TimeState)
  (H1 : nonneg t1) (S1 : safe t1) (H2 : nonneg t2) (S2 : safe t2) :
  formatTime t1 = formatTime t2 -> t1 = t2.
Proof.
  intros E.
  rewrite <- (parse_format_safe t1 H1 S1), <- (parse_format_safe t2 H2 S2), E.
  reflexivity.
Qed.

Lemma formatTime_injective_witness :
  mkTime 0 90 0 = mkTime 0 90 0.
Proof.
  apply formatTime_injective;
    [unfold nonneg; simpl; lia | unfold safe, MAX_SAFE_INTEGER; simpl; lia
    | unfold nonneg; simpl; lia | unfold safe, MAX_SAFE_INTEGER; simpl; lia |].
  reflexivity.
Defined.

Lemma keeps_text_inputValue (e : event) (w : Widget) :
  keeps_text e = true -> inputValue (apply_op e w) = inputValue w.
Proof.
  destruct e; simpl; intros H; try discriminate.
  - unfold handleStart; destruct (is_zero (time w)); reflexivity.
  - reflexivity.
  - reflexivity.
  - reflexivity.
  - unfold tick; destruct (isRunning w && negb (isCompleted w)); [|reflexivity].
    destruct (is_zero (time w)); reflexivity.
Qed.

(** X2: after a preset of [m] minutes (0 <= m <= 2^53 - 1; the buttons
    pass 1 to 60) chosen while not Running, any
    later Start, Pause, Reset, Dismiss or tick keeps its text, so a Reset
    brings back exactly {0,m,0}, Idle, with the alert hidden. *)
Theorem preset_then_reset (m : Z) (w : Widget) (es : list event)
  (Hm : 0 <= m <= MAX_SAFE_INTEGER) (HR : isRunning w = false)
  (Hes : forallb keeps_text es = true) :
  let w' := handleReset (run_ops (handlePreset m w) es) in
  time w' = mkTime 0 m 0 /\ isRunning w' = false /\ isCompleted w' = false
  /\ showAlert w' = false.
Proof.
  cbv zeta; unfold handleReset at 1 2 3 4; simpl; repeat split.
  assert (Hv : forall w0, inputValue (run_ops w0 es) = inputValue w0).
  { clear HR; unfold run_ops; induction es as [|e es IH]; intros w0; simpl in *;
      [reflexivity|].
    apply andb_true_iff in Hes as [He Hes].
    rewrite (IH Hes), (keeps_text_inputValue e w0 He); reflexivity. }
  rewrite Hv; unfold handlePreset; rewrite HR; cbn [negb inputValue].
  apply parse_format_safe;
    [unfold nonneg; cbn [hours minutes seconds]; lia
    | unfold safe, MAX_SAFE_INTEGER in *; cbn [hours minutes seconds]; lia].
Qed.

Lemma preset_then_reset_witness :
  time (handleReset (run_ops (handlePreset 60 initial) [EvStart; EvTick; EvTick; EvPause]))
    = mkTime 0 60 0.
Proof.
  destruct (preset_then_reset 60 initial [EvStart; EvTick; EvTick; EvPause])
    as [H _]; [unfold MAX_SAFE_INTEGER; lia | reflexivity | reflexivity | exact H].
Defined.

Lemma tick_time_step_safe (t : TimeState)
  (Hnn : nonneg t) (Hsafe : safe t) (Hnz : is_zero t = false) :
  total_seconds (tick_time t) = total_seconds t - 1 /\ safe (tick_time t).
Proof.
  destruct t as [h m s]; unfold nonneg, safe, is_zero, total_seconds, tick_time in *;
    cbn [hours minutes seconds] in *.
  assert (H59 : 59 <= MAX_SAFE_INTEGER) by (unfold MAX_SAFE_INTEGER; lia).
  destruct (s >? 0) eqn:E1.
  { apply Z.gtb_lt in E1; rewrite js_sub_exact by lia; cbn [hours minutes seconds]; lia. }
  destruct (m >? 0) eqn:E2.
  { apply Z.gtb_lt in E2; rewrite js_sub_exact by lia; cbn [hours minutes seconds]; lia. }
  rewrite Z.gtb_ltb, Z.ltb_ge in E1, E2.
  assert (s = 0) by lia; assert (m = 0) by lia; subst s m.
  rewrite Z.eqb_refl, !andb_true_r in Hnz; apply Z.eqb_neq in Hnz.
  assert (Hh : (h >? 0) = true) by (apply Z.gtb_lt; lia).
  rewrite Hh, js_sub_exact by lia; cbn [hours minutes seconds]; lia.
Qed.

(** X3: on a non-zero duration whose fields are non-negative safe
    integers (at most 2^53 - 1, where the JS subtraction is exact), the
    tick's update removes exactly one second from the total
    3600*hours + 60*minutes + seconds, whether or not minutes and seconds
    are below 60, and the fields stay safe integers. *)
Theorem tick_time_total_seconds (t : TimeState)
  (Hnn : nonneg t) (Hsafe : safe t) (Hnz : is_zero t = false) :
  total_seconds (tick_time t) = total_seconds t - 1 /\ safe (tick_time t).
Proof. exact (tick_time_step_safe t Hnn Hsafe Hnz). Qed.

Lemma tick_time_total_seconds_witness :
  total_seconds (tick_time (mkTime 1 0 0)) = 3599.
Proof.
  destruct (tick_time_total_seconds (mkTime 1 0 0)) as [H _];
    [unfold nonneg; simpl; lia | unfold safe, MAX_SAFE_INTEGER; simpl; lia
    | reflexivity | rewrite H; reflexivity].
Defined.

Lemma nonneg_total_zero (t : TimeState) :
  nonneg t -> total_seconds t = 0 -> t = zeroTime.
Proof.
  destruct t as [h m s]; unfold nonneg, total_seconds, zeroTime;
    cbn [hours minutes seconds]; intros H E.
  assert (h = 0) by lia; assert (m = 0) by lia; assert (s = 0) by lia; subst; reflexivity.
Qed.

Lemma ticks_add (a b : nat) (w : Widget) : ticks (a + b) w = ticks b (ticks a w).
Proof. revert w; induction a as [|a IH]; intros w; simpl; [reflexivity | apply IH]. Qed.

Lemma ticks_running (n : nat) :
  forall w, isRunning w = true -> isCompleted w = false -> nonneg (time w) ->
  safe (time w) -> Z.of_nat n <= total_seconds (time w) ->
  let w' := ticks n w in
  isRunning w' = true /\ isCompleted w' = false /\ nonneg (time w')
  /\ safe (time w')
  /\ total_seconds (time w') = total_seconds (time w) - Z.of_nat n
  /\ showAlert w' = showAlert w /\ inputValue w' = inputValue w
  /\ beeps w' = beeps w.
Proof.
  induction n as [|n IH]; intros w HR HC Hnn Hsafe Hn; cbv zeta.
  - cbn [ticks]; rewrite Z.sub_0_r.
    split; [exact HR | split; [exact HC | split; [exact Hnn | split; [exact Hsafe | repeat split]]]].
  - assert (Hnz : is_zero (time w) = false).
    { destruct (is_zero (time w)) eqn:Z; [|reflexivity].
      apply is_zero_true in Z; rewrite Z in Hn; unfold total_seconds in Hn; simpl in Hn; lia. }
    assert (Ht : tick w = mkWidget (tick_time (time w)) true false (showAlert w)
                                   (inputValue w) (beeps w))
      by (unfold tick; rewrite HR, HC, Hnz; reflexivity).
    change (ticks (S n) w) with (ticks n (tick w)); rewrite Ht.
    destruct (tick_time_step_safe (time w) Hnn Hsafe Hnz) as [Htot Hsafe'].
    destruct (IH (mkWidget (tick_time (time w)) true false (showAlert w)
                           (inputValue w) (beeps w)) eq_refl eq_refl
                 (tick_time_nonneg _ Hnn) Hsafe')
      as (H1 & H2 & H3 & H3' & H4 & H5 & H6 & H7);
      cbn [time showAlert inputValue beeps] in *; [lia|].
    split; [exact H1 | split; [exact H2 | split; [exact H3 | split; [exact H3' | split; [lia | auto]]]]].
Qed.

(** X4: a countdown started on a duration whose fields are non-negative
    safe integers (at most 2^53 - 1), of N seconds in total,
    stays Running without beeping for N ticks and reaches {0,0,0} after
    exactly N ticks; every tick after that leaves it Completed, alert
    shown, with exactly one beep added. *)
Theorem countdown_completes (w : Widget)
  (HR : isRunning w = true) (HC : isCompleted w = false)
  (Hnn : nonneg (time w)) (Hsafe : safe (time w)) :
  let N := Z.to_nat (total_seconds (time w)) in
  (forall n, (n <= N)%nat ->
     isRunning (ticks n w) = true /\ isCompleted (ticks n w) = false
     /\ beeps (ticks n w) = beeps w)
  /\ ticks N w = mkWidget zeroTime true false (showAlert w) (inputValue w) (beeps w)
  /\ (forall k, ticks (N + S k) w
                = mkWidget zeroTime false true true (inputValue w) (S (beeps w))).
Proof.
  cbv zeta.
  assert (Htot : 0 <= total_seconds (time w))
    by (unfold nonneg, total_seconds in *; lia).
  split; [|split].
  - intros n Hn.
    destruct (ticks_running n w HR HC Hnn Hsafe ltac:(lia)) as (H1 & H2 & _ & _ & _ & _ & _ & H7).
    auto.
  - destruct (ticks_running (Z.to_nat (total_seconds (time w))) w HR HC Hnn Hsafe ltac:(lia))
      as (H1 & H2 & H3 & _ & H4 & H5 & H6 & H7).
    rewrite Z2Nat.id in H4 by lia.
    assert (Hz : time (ticks (Z.to_nat (total_seconds (time w))) w) = zeroTime)
      by (apply nonneg_total_zero; [exact H3 | lia]).
    destruct (ticks _ w) as [t r c sa iv b]; cbn in *; subst; reflexivity.
  - intros k.
    destruct (ticks_running (Z.to_nat (total_seconds (time w))) w HR HC Hnn Hsafe ltac:(lia))
      as (H1 & H2 & H3 & _ & H4 & H5 & H6 & H7).
    rewrite Z2Nat.id in H4 by lia.
    assert (Hz : time (ticks (Z.to_nat (total_seconds (time w))) w) = zeroTime)
      by (apply nonneg_total_zero; [exact H3 | lia]).
    rewrite ticks_add.
    destruct (ticks _ w) as [t r c sa iv b]; cbn in *; subst.
    change (ticks (S k) (mkWidget zeroTime true false (showAlert w) (inputValue w) (beeps w)))
      with (ticks k (tick (mkWidget zeroTime true false (showAlert w) (inputValue w) (beeps w)))).
    apply ticks_fixed; reflexivity.
Qed.

Lemma countdown_completes_witness :
  ticks (125 + S 3) (mkWidget (mkTime 0 2 5) true false false "2:05" 0)
    = mkWidget zeroTime false true true "2:05" 1.
Proof.
  destruct (countdown_completes (mkWidget (mkTime 0 2 5) true false false "2:05" 0)
              eq_refl eq_refl) as (_ & _ & H).
  - unfold nonneg; simpl; lia.
  - unfold safe, MAX_SAFE_INTEGER; simpl; lia.
  - apply (H 3%nat).
Defined.

(** X5: no operation other than a tick plays the beep or sets Completed,
    and a tick does either only when it fires on a Running, not yet
    Completed widget at {0,0,0}; then it plays the beep exactly once. *)
Theorem beep_only_on_zero_tick (e : event) (w : Widget) :
  (beeps (apply_op e w) = beeps w
   /\ (isCompleted w = false -> isCompleted (apply_op e w) = false))
  \/ (e = EvTick /\ isRunning w = true /\ isCompleted w = false
      /\ time w = zeroTime
      /\ beeps (apply_op e w) = S (beeps w)
      /\ isCompleted (apply_op e w) = true).
Proof.
  destruct e; simpl.
  - left; unfold handleStart; destruct (is_zero (time w)); split; auto.
  - left; split; auto.
  - left; split; auto.
  - left; unfold handlePreset; destruct (negb (isRunning w)); split; auto.
  - left; unfold handleInputChange; destruct (negb (isRunning w)); split; auto.
  - left; split; auto.
  - unfold tick; destruct (isRunning w) eqn:R, (isCompleted w) eqn:C; simpl;
      try (left; split; [reflexivity | intros; try discriminate; auto]; fail).
    destruct (is_zero (time w)) eqn:Z; simpl.
    + right; apply is_zero_true in Z; repeat split; auto.
    + left; split; [reflexivity | auto].
Qed.

(** X6: in every state with the two flags not both set (every reachable
    one, C9), a disabled Start, Pause, preset or Dismiss control guards
    nothing the handler does not already refuse: the handler would leave
    the state unchanged. The text field is the exception
    ([handleInputChange_running_stores_text]). *)
Theorem disabled_controls_redundant (e : event) (w : Widget)
  (Hok : flags_ok w = true) (Hoff : enabled e w = false)
  (Hnot : keeps_text e = true \/ exists m, e = EvPreset m) :
  apply_op e w = w.
Proof.
  destruct w as [t r c sa iv b]; unfold flags_ok in Hok; cbn in Hok.
  destruct e; cbn in *.
  - unfold handleStart; cbn.
    destruct (is_zero t) eqn:Z; [reflexivity|].
    rewrite orb_false_r in Hoff; destruct r; [|discriminate].
    destruct c; [discriminate | reflexivity].
  - subst r; reflexivity.
  - discriminate.
  - unfold handlePreset; cbn; destruct r; [reflexivity | discriminate].
  - destruct Hnot as [H | [m H]]; discriminate.
  - subst sa; reflexivity.
  - discriminate.
Qed.

Lemma disabled_controls_redundant_witness :
  let w := mkWidget (mkTime 0 3 0) true false false "03:00" 0 in
  apply_op EvStart w = w.
Proof.
  apply disabled_controls_redundant; [reflexivity | reflexivity | left; reflexivity].
Defined.

Lemma beep_only_on_zero_tick_witness :
  beeps (apply_op EvReset (mkWidget zeroTime false true true "00:00" 1)) = 1%nat.
Proof.
  destruct (beep_only_on_zero_tick EvReset (mkWidget zeroTime false true true "00:00" 1))
    as [[H _] | [H _]]; [exact H | discriminate H].
Defined.

Lemma apply_op_completed_zero (e : event) (w : Widget) :
  (isCompleted w = true -> time w = zeroTime) ->
  isCompleted (apply_op e w) = true -> time (apply_op e w) = zeroTime.
Proof.
  intros H; destruct e; cbn [apply_op].
  - unfold handleStart; destruct (is_zero (time w)); [exact H | discriminate].
  - exact H.
  - discriminate.
  - unfold handlePreset; destruct (isRunning w); [exact H | discriminate].
  - unfold handleInputChange; destruct (isRunning w); [exact H | discriminate].
  - exact H.
  - unfold tick; destruct (isRunning w && negb (isCompleted w)) eqn:A; [|exact H].
    destruct (is_zero (time w)) eqn:Z.
    + intros _; apply is_zero_true, Z.
    + apply andb_true_iff in A as [_ A]; apply negb_true_iff in A.
      cbn [isCompleted]; rewrite A; discriminate.
Qed.

(** X7: in every state reached from the initial one by any sequence of
    operations, delivered by the widget or applied directly to the
    handlers, a Completed widget shows {0,0,0}. *)
Theorem completed_implies_zero (es : list event) :
  (isCompleted (run initial es) = true -> time (run initial es) = zeroTime)
  /\ (isCompleted (run_ops initial es) = true -> time (run_ops initial es) = zeroTime).
Proof.
  assert (G : forall (f : Widget -> event -> Widget),
             (forall w e, f w e = w \/ f w e = apply_op e w) ->
             forall es w, (isCompleted w = true -> time w = zeroTime) ->
             isCompleted (fold_left f es w) = true ->
             time (fold_left f es w) = zeroTime).
  { intros f Hf es0; induction es0 as [|e es0 IH]; intros w Hw; simpl; [exact Hw|].
    apply IH; destruct (Hf w e) as [E|E]; rewrite E; [exact Hw|].
    apply apply_op_completed_zero, Hw. }
  split.
  - apply (G step); [|discriminate].
    intros w e; unfold step; destruct (enabled e w); auto.
  - apply (G (fun w e => apply_op e w)); [auto | discriminate].
Qed.

(** X8: once Completed at {0,0,0}, only Reset, a preset or an input edit
    clears Completed: Start, Pause, Dismiss and ticks leave it set. *)
Theorem completed_cleared_only_by_reset_or_edit (e : event) (w : Widget)
  (HC : isCompleted w = true) (Hz : time w = zeroTime) :
  isCompleted (apply_op e w) = false ->
  e = EvReset \/ (exists m, e = EvPreset m) \/ (exists v, e = EvInput v).
Proof.
  assert (Hz' : is_zero (time w) = true) by (apply is_zero_true; exact Hz).
  destruct e; cbn [apply_op]; intros H; eauto.
  - unfold handleStart in H; rewrite Hz' in H; congruence.
  - cbn in H; congruence.
  - cbn in H; congruence.
  - unfold tick in H; rewrite HC, andb_false_r in H; congruence.
Qed.

Lemma completed_cleared_only_by_reset_or_edit_witness :
  EvReset = EvReset \/ (exists m, EvReset = EvPreset m) \/ (exists v, EvReset = EvInput v).
Proof.
  apply (completed_cleared_only_by_reset_or_edit EvReset
           (mkWidget zeroTime false true true "00:05" 1) eq_refl eq_refl).
  reflexivity.
Defined.

(** X9: a Running countdown whose fields are all <= 0 but not all 0
    (reachable: the parser keeps a sign, "-1:00" gives {0,-1,0}) never
    changes again: every tick returns the same duration, so it never
    completes and never beeps. *)
Theorem negative_duration_stalls (w : Widget)
  (HR : isRunning w = true) (HC : isCompleted w = false)
  (Hh : hours (time w) <= 0) (Hm : minutes (time w) <= 0)
  (Hs : seconds (time w) <= 0) (Hnz : is_zero (time w) = false) :
  forall n, ticks n w = w.
Proof.
  apply ticks_fixed; unfold tick; rewrite HR, HC, Hnz; cbn [andb negb].
  destruct w as [[h m s] r c sa iv b]; cbn in *; subst r c.
  unfold tick_time.
  assert (E1 : (s >? 0) = false) by (rewrite Z.gtb_ltb; apply Z.ltb_ge; lia).
  assert (E2 : (m >? 0) = false) by (rewrite Z.gtb_ltb; apply Z.ltb_ge; lia).
  assert (E3 : (h >? 0) = false) by (rewrite Z.gtb_ltb; apply Z.ltb_ge; lia).
  rewrite E1, E2, E3; reflexivity.
Qed.

Lemma negative_duration_stalls_witness :
  let w := run initial [EvInput "-1:00"; EvStart] in
  ticks 500 w = w.
Proof.
  apply negative_duration_stalls; vm_compute; first [reflexivity | discriminate].
Defined.

Lemma completed_implies_zero_witness :
  time (run initial [EvInput "0:01"; EvStart; EvTick; EvTick]) = zeroTime.
Proof.
  apply (proj1 (completed_implies_zero [EvInput "0:01"; EvStart; EvTick; EvTick])).
  vm_compute; reflexivity.
Defined.
